(** * keymap.h: the scan-code table of the Apple Extended Keyboard II

    The repository is one header, [keymap.h], holding

      uint8_t keymap[128] = { 'a', 's', ..., KEY_RETURN, ..., 0x27, ..., 0 };

    The keyboard sends a 7-bit identifier per key; the identifier indexes the
    array and the byte found there is the key code handed to the USB side.

    The embedding keeps the two layers the header has:
    - the initialiser list as it is written (character literals, integer
      literals and the [KEY_*] macros of the keyboard library), and
    - the array of bytes the compiler builds from it, every initialiser
      converted to [uint8_t].

    The [KEY_*] macros are not defined in the repository; they come from the
    keyboard library the sketch is compiled against.  Their numeric values
    are therefore a parameter of the development. *)

From Stdlib Require Import ZArith List Bool Ascii Lia Permutation.
Import ListNotations.
Local Open Scope Z_scope.

(** ** The macros the table refers to *)

(** One constructor per [KEY_*] macro used in [keymap.h], with the macro's
    name. *)
Inductive key_name : Type :=
| KEY_RETURN | KEY_TAB | KEY_BACKSPACE | KEY_ESC
| KEY_LEFT_CTRL | KEY_LEFT_GUI | KEY_LEFT_SHIFT | KEY_CAPS_LOCK | KEY_LEFT_ALT
| KEY_LEFT_ARROW | KEY_RIGHT_ARROW | KEY_DOWN_ARROW | KEY_UP_ARROW
| KEY_KP_DOT | KEY_KP_ASTERISK | KEY_KP_PLUS | KEY_NUM_LOCK
| KEY_KP_SLASH | KEY_KP_ENTER | KEY_KP_MINUS
| KEY_KP_0 | KEY_KP_1 | KEY_KP_2 | KEY_KP_3 | KEY_KP_4
| KEY_KP_5 | KEY_KP_6 | KEY_KP_7 | KEY_KP_8 | KEY_KP_9
| KEY_F1 | KEY_F2 | KEY_F3 | KEY_F4 | KEY_F5
| KEY_F6 | KEY_F7 | KEY_F8 | KEY_F9 | KEY_F10
| KEY_F11 | KEY_F12 | KEY_F13 | KEY_F14 | KEY_F15
| KEY_INSERT | KEY_HOME | KEY_PAGE_UP | KEY_DELETE | KEY_END | KEY_PAGE_DOWN
| KEY_RIGHT_SHIFT | KEY_RIGHT_ALT | KEY_RIGHT_CTRL.

Definition key_name_eq_dec (a b : key_name) : {a = b} + {a <> b}.
Proof. decide equality. Defined.

Definition key_name_eqb (a b : key_name) : bool :=
  if key_name_eq_dec a b then true else false.

(** Every macro of the table, once. *)
Definition all_key_names : list key_name :=
  [ KEY_RETURN; KEY_TAB; KEY_BACKSPACE; KEY_ESC;
    KEY_LEFT_CTRL; KEY_LEFT_GUI; KEY_LEFT_SHIFT; KEY_CAPS_LOCK; KEY_LEFT_ALT;
    KEY_LEFT_ARROW; KEY_RIGHT_ARROW; KEY_DOWN_ARROW; KEY_UP_ARROW;
    KEY_KP_DOT; KEY_KP_ASTERISK; KEY_KP_PLUS; KEY_NUM_LOCK;
    KEY_KP_SLASH; KEY_KP_ENTER; KEY_KP_MINUS;
    KEY_KP_0; KEY_KP_1; KEY_KP_2; KEY_KP_3; KEY_KP_4;
    KEY_KP_5; KEY_KP_6; KEY_KP_7; KEY_KP_8; KEY_KP_9;
    KEY_F1; KEY_F2; KEY_F3; KEY_F4; KEY_F5;
    KEY_F6; KEY_F7; KEY_F8; KEY_F9; KEY_F10;
    KEY_F11; KEY_F12; KEY_F13; KEY_F14; KEY_F15;
    KEY_INSERT; KEY_HOME; KEY_PAGE_UP; KEY_DELETE; KEY_END; KEY_PAGE_DOWN;
    KEY_RIGHT_SHIFT; KEY_RIGHT_ALT; KEY_RIGHT_CTRL ].

(** ** The initialiser list, as written *)

(** The three forms an initialiser takes in [keymap.h]. *)
Inductive initializer : Type :=
| IntLit (n : Z)           (* an integer literal: [0], [0x27] *)
| CharLit (c : ascii)      (* a character literal: ['a'], ['\\'] *)
| Macro (k : key_name).    (* a macro of the keyboard library *)

Definition initializer_eq_dec (a b : initializer) : {a = b} + {a <> b}.
Proof.
  decide equality;
    [ apply Z.eq_dec | apply ascii_dec | apply key_name_eq_dec ].
Defined.

(** The array is declared [uint8_t keymap[128]]. *)
Definition KEYMAP_SIZE : nat := 128.

(** The initialisers of [keymap], in source order; the comment of each line
    is the scan code the header gives it. *)
Definition keymap_init : list initializer :=
  [ CharLit "a";          (* 0x00, A *)
    CharLit "s";          (* 0x01, S *)
    CharLit "d";          (* 0x02, D *)
    CharLit "f";          (* 0x03, F *)
    CharLit "h";          (* 0x04, H *)
    CharLit "g";          (* 0x05, G *)
    CharLit "z";          (* 0x06, Z *)
    CharLit "x";          (* 0x07, X *)
    CharLit "c";          (* 0x08, C *)
    CharLit "v";          (* 0x09, V *)
    IntLit 0;             (* 0x0A, UNKNOWN *)
    CharLit "b";          (* 0x0B, B *)
    CharLit "q";          (* 0x0C, Q *)
    CharLit "w";          (* 0x0D, W *)
    CharLit "e";          (* 0x0E, E *)
    CharLit "r";          (* 0x0F, R *)
    CharLit "y";          (* 0x10, Y *)
    CharLit "t";          (* 0x11, T *)
    CharLit "1";          (* 0x12, 1 *)
    CharLit "2";          (* 0x13, 2 *)
    CharLit "3";          (* 0x14, 3 *)
    CharLit "4";          (* 0x15, 4 *)
    CharLit "6";          (* 0x16, 6 *)
    CharLit "5";          (* 0x17, 5 *)
    CharLit "=";          (* 0x18, = and + *)
    CharLit "9";          (* 0x19, 9 *)
    CharLit "7";          (* 0x1A, 7 *)
    CharLit "-";          (* 0x1B, - and _ *)
    CharLit "8";          (* 0x1C, 8 *)
    CharLit "0";          (* 0x1D, 0 *)
    CharLit "]";          (* 0x1E, right bracket *)
    CharLit "o";          (* 0x1F, O *)
    CharLit "u";          (* 0x20, U *)
    CharLit "[";          (* 0x21, left bracket *)
    CharLit "i";          (* 0x22, I *)
    CharLit "p";          (* 0x23, P *)
    Macro KEY_RETURN;     (* 0x24, Enter/Return *)
    CharLit "l";          (* 0x25, L *)
    CharLit "j";          (* 0x26, J *)
    IntLit 0x27;          (* 0x27, apostrophe, written 0x27 *)
    CharLit "k";          (* 0x28, K *)
    CharLit ";";          (* 0x29, ; and : *)
    CharLit "\";          (* 0x2A, backslash and | *)
    CharLit ",";          (* 0x2B, , and < *)
    CharLit "/";          (* 0x2C, / and ? *)
    CharLit "n";          (* 0x2D, N *)
    CharLit "m";          (* 0x2E, M *)
    CharLit ".";          (* 0x2F, . and > *)
    Macro KEY_TAB;        (* 0x30, Tab key *)
    CharLit " ";          (* 0x31, Space key *)
    CharLit "`";          (* 0x32, ` and ~ *)
    Macro KEY_BACKSPACE;  (* 0x33, Backspace key *)
    IntLit 0;             (* 0x34, 0 *)
    Macro KEY_ESC;        (* 0x35, Escape key *)
    Macro KEY_LEFT_CTRL;  (* 0x36, Left control key *)
    Macro KEY_LEFT_GUI;   (* 0x37, Command key *)
    Macro KEY_LEFT_SHIFT; (* 0x38, Left shift key *)
    Macro KEY_CAPS_LOCK;  (* 0x39, Caps lock key *)
    Macro KEY_LEFT_ALT;   (* 0x3A, Left alt key *)
    Macro KEY_LEFT_ARROW; (* 0x3B, Left arrow key *)
    Macro KEY_RIGHT_ARROW; (* 0x3C, Right arrow key *)
    Macro KEY_DOWN_ARROW; (* 0x3D, Down arrow key *)
    Macro KEY_UP_ARROW;   (* 0x3E, Up arrow key *)
    IntLit 0;             (* 0x3F, UNKNOWN *)
    IntLit 0;             (* 0x40, UNKNOWN *)
    Macro KEY_KP_DOT;     (* 0x41, Keypad . *)
    IntLit 0;             (* 0x42, UNKNOWN *)
    Macro KEY_KP_ASTERISK; (* 0x43, Keypad * *)
    IntLit 0;             (* 0x44, UNKNOWN *)
    Macro KEY_KP_PLUS;    (* 0x45, Keypad + *)
    IntLit 0;             (* 0x46, UNKNOWN *)
    Macro KEY_NUM_LOCK;   (* 0x47, Num Lock key *)
    IntLit 0;             (* 0x48, UNKNOWN *)
    IntLit 0;             (* 0x49, UNKNOWN *)
    IntLit 0;             (* 0x4A, UNKNOWN *)
    Macro KEY_KP_SLASH;   (* 0x4B, Keypad / *)
    Macro KEY_KP_ENTER;   (* 0x4C, Keypad Enter *)
    IntLit 0;             (* 0x4D, UNKNOWN *)
    Macro KEY_KP_MINUS;   (* 0x4E, Keypad - *)
    IntLit 0;             (* 0x4F, UNKNOWN *)
    IntLit 0;             (* 0x50, UNKNOWN *)
    CharLit "=";          (* 0x51, Keypad = *)
    Macro KEY_KP_0;       (* 0x52, Keypad 0 *)
    Macro KEY_KP_1;       (* 0x53, Keypad 1 *)
    Macro KEY_KP_2;       (* 0x54, Keypad 2 *)
    Macro KEY_KP_3;       (* 0x55, Keypad 3 *)
    Macro KEY_KP_4;       (* 0x56, Keypad 4 *)
    Macro KEY_KP_5;       (* 0x57, Keypad 5 *)
    Macro KEY_KP_6;       (* 0x58, Keypad 6 *)
    Macro KEY_KP_7;       (* 0x59, Keypad 7 *)
    IntLit 0;             (* 0x5A, UNKNOWN *)
    Macro KEY_KP_8;       (* 0x5B, Keypad 8 *)
    Macro KEY_KP_9;       (* 0x5C, Keypad 9 *)
    IntLit 0;             (* 0x5D, UNKNOWN *)
    IntLit 0;             (* 0x5E, UNKNOWN *)
    IntLit 0;             (* 0x5F, UNKNOWN *)
    Macro KEY_F5;         (* 0x60, F5 *)
    Macro KEY_F6;         (* 0x61, F6 *)
    Macro KEY_F7;         (* 0x62, F7 *)
    Macro KEY_F3;         (* 0x63, F3 *)
    Macro KEY_F8;         (* 0x64, F8 *)
    Macro KEY_F9;         (* 0x65, F9 *)
    IntLit 0;             (* 0x66, UNKNOWN *)
    Macro KEY_F11;        (* 0x67, F11 *)
    IntLit 0;             (* 0x68, UNKNOWN *)
    Macro KEY_F13;        (* 0x69, F13 *)
    IntLit 0;             (* 0x6A, UNKNOWN *)
    Macro KEY_F14;        (* 0x6B, F14 *)
    IntLit 0;             (* 0x6C, UNKNOWN *)
    Macro KEY_F10;        (* 0x6D, F10 *)
    IntLit 0;             (* 0x6E, UNKNOWN *)
    Macro KEY_F12;        (* 0x6F, F12 *)
    IntLit 0;             (* 0x70, UNKNOWN *)
    Macro KEY_F15;        (* 0x71, F15 *)
    Macro KEY_INSERT;     (* 0x72, Insert key *)
    Macro KEY_HOME;       (* 0x73, Home key *)
    Macro KEY_PAGE_UP;    (* 0x74, Page up key *)
    Macro KEY_DELETE;     (* 0x75, Delete key *)
    Macro KEY_F4;         (* 0x76, F4 *)
    Macro KEY_END;        (* 0x77, End key *)
    Macro KEY_F2;         (* 0x78, F2 *)
    Macro KEY_PAGE_DOWN;  (* 0x79, Page down key *)
    Macro KEY_F1;         (* 0x7A, F1 *)
    Macro KEY_RIGHT_SHIFT; (* 0x7B, Right shift *)
    Macro KEY_RIGHT_ALT;  (* 0x7C, Right alt key *)
    Macro KEY_RIGHT_CTRL; (* 0x7D, Right control key *)
    IntLit 0;             (* 0x7E, UNKNOWN *)
    IntLit 0              (* 0x7F, Power button *)
  ].

(** ** The array the compiler builds *)

(** Conversion of an [int] to [uint8_t]: reduction modulo 2^8. *)
Definition to_uint8 (z : Z) : Z := z mod 256.

(** The value of a character literal: the code of the character. *)
Definition char_code (c : ascii) : Z := Z.of_N (N_of_ascii c).

(** [T a[n] = { inits }]: the initialisers fill the array from index 0 and
    the elements left without one are zero.  More than [n] initialisers are
    rejected by the compiler, so the model is meant for
    [length inits <= n]. *)
Definition array_init (n : nat) (inits : list Z) : list Z :=
  firstn n (inits ++ repeat 0 (n - length inits)).

(** [a[i]] on an array held as a list: reading outside the array is
    undefined in C, which is [None] here.  This is the [lookup(i)] of the
    design notes; the header has no accessor of its own. *)
Definition array_read (a : list Z) (i : Z) : option Z :=
  if i <? 0 then None else nth_error a (Z.to_nat i).

(** The scan codes the keyboard can send: 0 .. 127. *)
Definition scancodes : list Z := map Z.of_nat (seq 0 KEYMAP_SIZE).

Section Keymap.

(** The numeric value of each macro, as the keyboard library defines it. *)
Variable KEY : key_name -> Z.

(** The value of one initialiser, stored in a [uint8_t]. *)
Definition eval (e : initializer) : Z :=
  to_uint8 match e with
           | IntLit n => n
           | CharLit c => char_code c
           | Macro k => KEY k
           end.

(** [uint8_t keymap[128] = { ... };] *)
Definition keymap : list Z :=
  array_init KEYMAP_SIZE (map eval keymap_init).

(** [keymap[i]] *)
Definition lookup (i : Z) : option Z := array_read keymap i.

(** A read of [keymap[i]] as a step on the program state, the state being
    the contents of the (non-[const]) global array: the result of the read
    and the array after it. *)
Definition lookup_step (i : Z) (mem : list Z) : option (Z * list Z) :=
  match array_read mem i with
  | Some v => Some (v, mem)
  | None => None
  end.

End Keymap.

(** ** A keyboard library to run the table with *)

(** The key codes of the Arduino [Keyboard.h] header, which defines every
    macro the table names.  The theorems below hold for any library; this
    one serves to evaluate the table on concrete values. *)
Definition arduino_keyboard (k : key_name) : Z :=
  match k with
  | KEY_LEFT_CTRL => 0x80 | KEY_LEFT_SHIFT => 0x81
  | KEY_LEFT_ALT => 0x82 | KEY_LEFT_GUI => 0x83
  | KEY_RIGHT_CTRL => 0x84 | KEY_RIGHT_SHIFT => 0x85 | KEY_RIGHT_ALT => 0x86
  | KEY_UP_ARROW => 0xDA | KEY_DOWN_ARROW => 0xD9
  | KEY_LEFT_ARROW => 0xD8 | KEY_RIGHT_ARROW => 0xD7
  | KEY_BACKSPACE => 0xB2 | KEY_TAB => 0xB3
  | KEY_RETURN => 0xB0 | KEY_ESC => 0xB1
  | KEY_INSERT => 0xD1 | KEY_DELETE => 0xD4
  | KEY_PAGE_UP => 0xD3 | KEY_PAGE_DOWN => 0xD6
  | KEY_HOME => 0xD2 | KEY_END => 0xD5
  | KEY_CAPS_LOCK => 0xC1
  | KEY_NUM_LOCK => 0xDB | KEY_KP_SLASH => 0xDC | KEY_KP_ASTERISK => 0xDD
  | KEY_KP_MINUS => 0xDE | KEY_KP_PLUS => 0xDF | KEY_KP_ENTER => 0xE0
  | KEY_KP_1 => 0xE1 | KEY_KP_2 => 0xE2 | KEY_KP_3 => 0xE3
  | KEY_KP_4 => 0xE4 | KEY_KP_5 => 0xE5 | KEY_KP_6 => 0xE6
  | KEY_KP_7 => 0xE7 | KEY_KP_8 => 0xE8 | KEY_KP_9 => 0xE9
  | KEY_KP_0 => 0xEA | KEY_KP_DOT => 0xEB
  | KEY_F1 => 0xC2 | KEY_F2 => 0xC3 | KEY_F3 => 0xC4 | KEY_F4 => 0xC5
  | KEY_F5 => 0xC6 | KEY_F6 => 0xC7 | KEY_F7 => 0xC8 | KEY_F8 => 0xC9
  | KEY_F9 => 0xCA | KEY_F10 => 0xCB | KEY_F11 => 0xCC | KEY_F12 => 0xCD
  | KEY_F13 => 0xF0 | KEY_F14 => 0xF1 | KEY_F15 => 0xF2
  end.

(** What the table needs of a keyboard library for "non-zero" to mean
    "mapped": no macro becomes 0 when stored in a [uint8_t]. *)
Definition keys_nonzero (KEY : key_name -> Z) : Prop :=
  forall k, to_uint8 (KEY k) <> 0.

(** ** The table as the design document describes it *)

(** The rows of the content table that describe mapped keys, as inclusive
    ranges of scan codes, in the order of the document. *)
Definition documented_ranges : list (Z * Z) :=
  [ (0x00, 0x39); (0x36, 0x3E); (0x41, 0x5C); (0x60, 0x7A); (0x7B, 0x7D) ].

(** The last row of the content table: the scan codes listed as unmapped
    (0x48-0x4A and 0x5D-0x5F written out). *)
Definition documented_unmapped : list Z :=
  [ 0x0A; 0x34; 0x3F; 0x40; 0x42; 0x44; 0x46; 0x48; 0x49; 0x4A; 0x4D; 0x4F;
    0x50; 0x5A; 0x5D; 0x5E; 0x5F; 0x66; 0x68; 0x6A; 0x6C; 0x6E; 0x70; 0x7E;
    0x7F ].

Definition in_range (i : Z) (r : Z * Z) : bool :=
  (fst r <=? i) && (i <=? snd r).

Definition listed (i : Z) (l : list Z) : bool := existsb (Z.eqb i) l.

(** The documented key set: the scan codes in one of the ranges and not in
    the unmapped row. *)
Definition documented_mapped (i : Z) : bool :=
  existsb (in_range i) documented_ranges && negb (listed i documented_unmapped).

(** The keys the document puts in 0x60-0x7A, and the holes it lists there. *)
Definition function_block_keys : list key_name :=
  [ KEY_F1; KEY_F2; KEY_F3; KEY_F4; KEY_F5; KEY_F6; KEY_F7; KEY_F8; KEY_F9;
    KEY_F10; KEY_F11; KEY_F12; KEY_F13; KEY_F14; KEY_F15;
    KEY_INSERT; KEY_HOME; KEY_PAGE_UP; KEY_PAGE_DOWN; KEY_DELETE; KEY_END ].

Definition function_block_unmapped : list Z :=
  [ 0x66; 0x68; 0x6A; 0x6C; 0x6E; 0x70 ].

(** The keypad digits, decimal point and operators, and keypad Enter. *)
Definition keypad_keys : list key_name :=
  [ KEY_KP_0; KEY_KP_1; KEY_KP_2; KEY_KP_3; KEY_KP_4; KEY_KP_5; KEY_KP_6;
    KEY_KP_7; KEY_KP_8; KEY_KP_9; KEY_KP_DOT; KEY_KP_PLUS; KEY_KP_MINUS;
    KEY_KP_ASTERISK; KEY_KP_SLASH; KEY_KP_ENTER ].

(** ** Reading the initialiser list *)

(** The initialiser written for scan code [i], if there is one. *)
Definition init_at (i : Z) : option initializer :=
  if i <? 0 then None else nth_error keymap_init (Z.to_nat i).

(** The initialisers of the scan codes [lo .. hi]. *)
Definition init_slice (lo hi : nat) : list initializer :=
  firstn (hi - lo + 1) (skipn lo keymap_init).

(** The macros among a list of initialisers, in order. *)
Definition macros_of (l : list initializer) : list key_name :=
  flat_map (fun e => match e with Macro k => [k] | _ => [] end) l.

(** Whether an initialiser is non-zero as a [uint8_t], decided on its
    written form; a macro counts as non-zero (see [keys_nonzero]). *)
Definition init_nonzero (e : initializer) : bool :=
  match e with
  | IntLit n => negb (to_uint8 n =? 0)
  | CharLit c => negb (to_uint8 (char_code c) =? 0)
  | Macro _ => true
  end.

(** ** Classes of key codes *)

Definition is_letter (v : Z) : bool :=
  ((0x61 <=? v) && (v <=? 0x7A)) || ((0x41 <=? v) && (v <=? 0x5A)).

Definition is_digit (v : Z) : bool := (0x30 <=? v) && (v <=? 0x39).

(** Punctuation as in C's [ispunct] for ASCII: printable, neither space nor
    alphanumeric. *)
Definition is_punct (v : Z) : bool :=
  ((0x21 <=? v) && (v <=? 0x2F)) || ((0x3A <=? v) && (v <=? 0x40))
  || ((0x5B <=? v) && (v <=? 0x60)) || ((0x7B <=? v) && (v <=? 0x7E)).

Definition SPACE : Z := char_code " ".
Definition BACKTICK : Z := char_code "`".

(** "Letters, digits, punctuation, Enter, Tab, Space, Backtick, Backspace,
    Escape": the kinds of key the first row of the content table names. *)
Definition typing_key (KEY : key_name -> Z) (v : Z) : Prop :=
  is_letter v = true \/ is_digit v = true \/ is_punct v = true \/
  v = to_uint8 (KEY KEY_RETURN) \/ v = to_uint8 (KEY KEY_TAB) \/
  v = SPACE \/ v = BACKTICK \/
  v = to_uint8 (KEY KEY_BACKSPACE) \/ v = to_uint8 (KEY KEY_ESC).

(** The same, decided on the written form of an initialiser. *)
Definition typing_init (e : initializer) : bool :=
  match e with
  | IntLit n =>
      let v := to_uint8 n in
      is_letter v || is_digit v || is_punct v || (v =? SPACE)
  | CharLit c =>
      let v := to_uint8 (char_code c) in
      is_letter v || is_digit v || is_punct v || (v =? SPACE)
  | Macro k =>
      match k with
      | KEY_RETURN | KEY_TAB | KEY_BACKSPACE | KEY_ESC => true
      | _ => false
      end
  end.

(** The first row of the content table, as written: every scan code of
    0x00-0x39 other than 0x0A and 0x34 holds a typing key. *)
Definition first_row_as_documented (KEY : key_name -> Z) : Prop :=
  forall i, 0x00 <= i <= 0x39 -> i <> 0x0A -> i <> 0x34 ->
    exists v, lookup KEY i = Some v /\ typing_key KEY v.

(** Whether scan code [i] is mapped: the table holds a non-zero byte
    there. *)
Definition mapped (KEY : key_name -> Z) (i : Z) : bool :=
  match lookup KEY i with
  | Some v => negb (v =? 0)
  | None => false
  end.

(** [n] reads of [keymap[i]] in a row: the values read and the array after
    the last read. *)
Fixpoint lookup_repeat (n : nat) (i : Z) (mem : list Z)
  : option (list Z * list Z) :=
  match n with
  | O => Some ([], mem)
  | S n' =>
      match lookup_step i mem with
      | Some (v, mem') =>
          match lookup_repeat n' i mem' with
          | Some (vs, mem'') => Some (v :: vs, mem'')
          | None => None
          end
      | None => None
      end
  end.

Definition key_listed (k : key_name) (l : list key_name) : bool :=
  existsb (key_name_eqb k) l.

(** ** What an initialiser denotes *)

(** The [int] value of an initialiser, before it is stored in the
    [uint8_t] element. *)
Definition raw_value (KEY : key_name -> Z) (e : initializer) : Z :=
  match e with
  | IntLit n => n
  | CharLit c => char_code c
  | Macro k => KEY k
  end.

(** The key an initialiser stands for: a literal byte, or a key the
    keyboard library names. *)
Inductive key_id : Type :=
| Literal (v : Z)
| Named (k : key_name).

Definition init_key (e : initializer) : key_id :=
  match e with
  | IntLit n => Literal (to_uint8 n)
  | CharLit c => Literal (to_uint8 (char_code c))
  | Macro k => Named k
  end.

Definition key_id_eqb (a b : key_id) : bool :=
  match a, b with
  | Literal v, Literal w => v =? w
  | Named k, Named k' => key_name_eqb k k'
  | _, _ => false
  end.

(** The byte a key is stored as. *)
Definition key_value (KEY : key_name -> Z) (a : key_id) : Z :=
  match a with
  | Literal v => v
  | Named k => to_uint8 (KEY k)
  end.

(** The key written for scan code [i]. *)
Definition key_at (i : Z) : option key_id := option_map init_key (init_at i).

(** ** Conditions on the keyboard library *)

(** Every macro is a byte already. *)
Definition keys_fit_byte (KEY : key_name -> Z) : Prop :=
  forall k, 0 <= KEY k < 256.

(** No macro is stored as a 7-bit ASCII code. *)
Definition keys_above_ascii (KEY : key_name -> Z) : Prop :=
  forall k, 0x80 <= to_uint8 (KEY k).

(** Different macros are stored as different bytes. *)
Definition keys_injective (KEY : key_name -> Z) : Prop :=
  forall k k', to_uint8 (KEY k) = to_uint8 (KEY k') -> k = k'.

(** ** More classes of key codes *)

Definition is_lower (v : Z) : bool := (0x61 <=? v) && (v <=? 0x7A).

Definition is_upper (v : Z) : bool := (0x41 <=? v) && (v <=? 0x5A).

(** The codes of 'a' .. 'z' and of '0' .. '9'. *)
Definition letter_and_digit_codes : list Z :=
  map Z.of_nat (seq 0x61 26 ++ seq 0x30 10).

(** The characters the keys of the table give with Shift held, as the
    comments of the header name them ("= and +", "; and :", ...), together
    with the shifted digits; 0x22 is the double quote. *)
Definition shifted_symbols : list Z :=
  0x22 :: map char_code
    [ "~"; "!"; "@"; "#"; "$"; "%"; "^"; "&"; "*"; "_"; "+"; "{"; "}";
      "|"; ":"; "<"; ">"; "?"; "("; ")" ]%char.

(** The scan codes of 0x41 .. 0x5C the header marks UNKNOWN. *)
Definition keypad_block_unmapped : list Z :=
  [ 0x42; 0x44; 0x46; 0x48; 0x49; 0x4A; 0x4D; 0x4F; 0x50; 0x5A ].

(** The scan codes written with key [a]. *)
Definition codes_of (a : key_id) : list Z :=
  filter (fun i => match key_at i with
                   | Some b => key_id_eqb b a
                   | None => false
                   end)
         scancodes.

(** * Properties *)

(** ** The array and its initialiser list *)

Lemma keymap_init_length : length keymap_init = KEYMAP_SIZE.
Proof. reflexivity. Qed.

Lemma array_init_full (n : nat) (inits : list Z) :
  length inits = n -> array_init n inits = inits.
Proof.
  intros Hlen. unfold array_init.
  rewrite Hlen, Nat.sub_diag. simpl. rewrite app_nil_r.
  apply firstn_all2. rewrite Hlen. apply Nat.le_refl.
Qed.

Lemma array_init_length (n : nat) (inits : list Z) :
  (length inits <= n)%nat -> length (array_init n inits) = n.
Proof.
  intros Hlen. unfold array_init.
  rewrite length_firstn, length_app, repeat_length. lia.
Qed.

(** The 128 initialisers fill the 128 elements: no element is left to the
    implicit zero. *)
Lemma keymap_unfold (KEY : key_name -> Z) :
  keymap KEY = map (eval KEY) keymap_init.
Proof.
  unfold keymap. apply array_init_full.
  rewrite length_map. apply keymap_init_length.
Qed.

Lemma lookup_init (KEY : key_name -> Z) (i : Z) :
  lookup KEY i = option_map (eval KEY) (init_at i).
Proof.
  unfold lookup, array_read, init_at. rewrite keymap_unfold.
  destruct (i <? 0); [reflexivity | apply nth_error_map].
Qed.

Lemma in_scancodes (i : Z) : 0 <= i < 128 -> In i scancodes.
Proof.
  intros Hi. unfold scancodes. apply in_map_iff.
  exists (Z.to_nat i). split; [lia |].
  apply in_seq. unfold KEYMAP_SIZE. lia.
Qed.

(** A property checked on the 128 scan codes holds of every scan code. *)
Lemma scancodes_forallb (f : Z -> bool) :
  forallb f scancodes = true -> forall i, 0 <= i < 128 -> f i = true.
Proof.
  intros Hall i Hi. rewrite forallb_forall in Hall.
  apply Hall, in_scancodes, Hi.
Qed.

Lemma init_at_in_range (i : Z) :
  0 <= i < 128 -> exists e, init_at i = Some e.
Proof.
  intros Hi. unfold init_at.
  destruct (Z.ltb_spec i 0) as [Hneg | _]; [lia |].
  destruct (nth_error keymap_init (Z.to_nat i)) as [e |] eqn:He.
  - exists e. reflexivity.
  - apply nth_error_None in He. rewrite keymap_init_length in He.
    unfold KEYMAP_SIZE in He. lia.
Qed.

Lemma init_at_out_of_range (i : Z) :
  ~ 0 <= i < 128 -> init_at i = None.
Proof.
  intros Hi. unfold init_at.
  destruct (Z.ltb_spec i 0) as [Hneg | Hpos]; [reflexivity |].
  apply nth_error_None. rewrite keymap_init_length.
  unfold KEYMAP_SIZE. lia.
Qed.

Lemma to_uint8_range (z : Z) : 0 <= to_uint8 z < 256.
Proof. unfold to_uint8. apply Z.mod_pos_bound. lia. Qed.

Lemma eval_range (KEY : key_name -> Z) (e : initializer) :
  0 <= eval KEY e < 256.
Proof. unfold eval. apply to_uint8_range. Qed.

(** Under [keys_nonzero], the written form decides whether the stored byte
    is zero. *)
Lemma eval_nonzero (KEY : key_name -> Z) (e : initializer) :
  keys_nonzero KEY -> (eval KEY e <> 0 <-> init_nonzero e = true).
Proof.
  intros HK. destruct e as [n | c | k]; unfold eval, init_nonzero.
  - rewrite negb_true_iff, Z.eqb_neq. reflexivity.
  - rewrite negb_true_iff, Z.eqb_neq. reflexivity.
  - split; [reflexivity | intros _; apply HK].
Qed.

Lemma arduino_keyboard_nonzero : keys_nonzero arduino_keyboard.
Proof. intros k. destruct k; vm_compute; discriminate. Qed.

Lemma listed_In (i : Z) (l : list Z) : listed i l = true <-> In i l.
Proof.
  unfold listed. rewrite existsb_exists. split.
  - intros [x [Hin Heq]]. apply Z.eqb_eq in Heq. subst x. exact Hin.
  - intros Hin. exists i. split; [exact Hin | apply Z.eqb_refl].
Qed.

(** ** Helpers for the content of the table *)

Lemma key_listed_In (k : key_name) (l : list key_name) :
  key_listed k l = true <-> In k l.
Proof.
  unfold key_listed, key_name_eqb. rewrite existsb_exists. split.
  - intros [x [Hin Heq]].
    destruct (key_name_eq_dec k x) as [-> | _]; [exact Hin | discriminate].
  - intros Hin. exists k. split; [exact Hin |].
    destruct (key_name_eq_dec k k) as [_ | Hne]; [reflexivity | contradiction].
Qed.

Lemma lookup_nonzero_init (KEY : key_name -> Z) (i : Z) (e : initializer) :
  keys_nonzero KEY -> init_at i = Some e ->
  ((exists v, lookup KEY i = Some v /\ v <> 0) <-> init_nonzero e = true).
Proof.
  intros HK He. rewrite lookup_init, He. simpl.
  rewrite <- (eval_nonzero KEY e HK). split.
  - intros [v [Hv Hnz]]. injection Hv as <-. exact Hnz.
  - intros Hnz. exists (eval KEY e). split; [reflexivity | exact Hnz].
Qed.

Lemma mapped_init (KEY : key_name -> Z) (i : Z) :
  keys_nonzero KEY ->
  mapped KEY i = match init_at i with
                 | Some e => init_nonzero e
                 | None => false
                 end.
Proof.
  intros HK. unfold mapped. rewrite lookup_init.
  destruct (init_at i) as [e |]; [simpl | reflexivity].
  destruct (init_nonzero e) eqn:Hnz.
  - apply negb_true_iff, Z.eqb_neq, (eval_nonzero KEY e HK), Hnz.
  - apply negb_false_iff, Z.eqb_eq.
    destruct (Z.eq_dec (eval KEY e) 0) as [Hz | Hz]; [exact Hz |].
    apply (eval_nonzero KEY e HK) in Hz. congruence.
Qed.

(** The written table against the documented key set, scan code by scan
    code. *)
Lemma init_nonzero_documented :
  forallb (fun i => Bool.eqb (match init_at i with
                              | Some e => init_nonzero e
                              | None => false
                              end)
                             (documented_mapped i))
          scancodes = true.
Proof. vm_compute. reflexivity. Qed.

(** The unmapped row is the complement of the mapped rows in 0 .. 127. *)
Lemma documented_rows_partition :
  forallb (fun i => Bool.eqb (documented_mapped i)
                             (negb (listed i documented_unmapped)))
          scancodes = true.
Proof. vm_compute. reflexivity. Qed.

Lemma typing_init_sound (KEY : key_name -> Z) (e : initializer) :
  typing_init e = true -> typing_key KEY (eval KEY e).
Proof.
  unfold typing_key, eval.
  destruct e as [n | c | k]; simpl.
  - rewrite !orb_true_iff, Z.eqb_eq. tauto.
  - rewrite !orb_true_iff, Z.eqb_eq. tauto.
  - destruct k; intros H; try discriminate H; tauto.
Qed.

Lemma first_row_typing_init :
  forallb (fun i => if (i <=? 0x35) && negb (i =? 0x0A) && negb (i =? 0x34)
                    then match init_at i with
                         | Some e => typing_init e
                         | None => false
                         end
                    else true)
          scancodes = true.
Proof. vm_compute. reflexivity. Qed.

(** Whatever the keyboard library, the documented first row fails as soon
    as Left-Ctrl has a code of its own. *)
Lemma first_row_fails_on_left_ctrl (KEY : key_name -> Z) :
  ~ typing_key KEY (to_uint8 (KEY KEY_LEFT_CTRL)) ->
  ~ first_row_as_documented KEY.
Proof.
  intros Hctrl Hrow.
  destruct (Hrow 0x36) as [v [Hv Ht]]; try lia.
  rewrite lookup_init in Hv. injection Hv as <-.
  apply Hctrl, Ht.
Qed.

Lemma arduino_left_ctrl_not_typing :
  ~ typing_key arduino_keyboard (to_uint8 (arduino_keyboard KEY_LEFT_CTRL)).
Proof.
  unfold typing_key.
  intros [H | [H | [H | [H | [H | [H | [H | [H | H]]]]]]]];
    vm_compute in H; discriminate H.
Qed.

Lemma function_block_macros :
  macros_of (init_slice 0x60 0x7A) =
  [ KEY_F5; KEY_F6; KEY_F7; KEY_F3; KEY_F8; KEY_F9; KEY_F11; KEY_F13;
    KEY_F14; KEY_F10; KEY_F12; KEY_F15; KEY_INSERT; KEY_HOME; KEY_PAGE_UP;
    KEY_DELETE; KEY_F4; KEY_END; KEY_F2; KEY_PAGE_DOWN; KEY_F1 ].
Proof. reflexivity. Qed.

Lemma function_block_keys_NoDup : NoDup function_block_keys.
Proof.
  unfold function_block_keys.
  repeat (constructor; [simpl; intuition discriminate |]).
  constructor.
Qed.

Lemma function_block_macros_NoDup : NoDup (macros_of (init_slice 0x60 0x7A)).
Proof.
  rewrite function_block_macros.
  repeat (constructor; [simpl; intuition discriminate |]).
  constructor.
Qed.

Lemma function_block_same_keys (k : key_name) :
  In k (macros_of (init_slice 0x60 0x7A)) <-> In k function_block_keys.
Proof.
  rewrite <- !key_listed_In. destruct k; vm_compute; tauto.
Qed.

(** In 0x60 .. 0x7A an initialiser is either a listed hole, written [0], or
    one of the documented macros. *)
Lemma function_block_init :
  forallb (fun i => if (0x60 <=? i) && (i <=? 0x7A)
                    then match init_at i with
                         | Some (Macro k) =>
                             key_listed k function_block_keys
                             && negb (listed i function_block_unmapped)
                         | Some (IntLit 0) => listed i function_block_unmapped
                         | _ => false
                         end
                    else true)
          scancodes = true.
Proof. vm_compute. reflexivity. Qed.

(** Every documented key of the block sits at some scan code of the block. *)
Lemma function_block_positions :
  forallb (fun k => existsb (fun i => (0x60 <=? i) && (i <=? 0x7A)
                                      && match init_at i with
                                         | Some (Macro k') => key_name_eqb k k'
                                         | _ => false
                                         end)
                            scancodes)
          function_block_keys = true.
Proof. vm_compute. reflexivity. Qed.

Lemma lookup_step_unchanged (i : Z) (mem : list Z) (v : Z) :
  array_read mem i = Some v -> lookup_step i mem = Some (v, mem).
Proof. intros Hr. unfold lookup_step. rewrite Hr. reflexivity. Qed.

Lemma lookup_repeat_const (n : nat) (i : Z) (mem : list Z) (v : Z) :
  array_read mem i = Some v ->
  lookup_repeat n i mem = Some (repeat v n, mem).
Proof.
  intros Hr. induction n as [| n IH]; simpl.
  - reflexivity.
  - rewrite (lookup_step_unchanged i mem v Hr), IH. reflexivity.
Qed.

(** ** The claims of the design document *)

Section KeymapFacts.

Variable KEY : key_name -> Z.

(** C5: the table is a sequence of exactly 128 key codes, one per
    initialiser; reading index [i] yields a value exactly when [i] is in
    0 .. 127, and that value is a byte. *)
Theorem keymap_has_128_entries :
  length (keymap KEY) = 128%nat /\
  length keymap_init = 128%nat /\
  (forall i, (exists v, lookup KEY i = Some v /\ 0 <= v < 256)
             <-> 0 <= i < 128) /\
  (forall i, 127 < i -> lookup KEY i = None).
Proof.
  split; [| split; [| split]].
  - rewrite keymap_unfold, length_map. reflexivity.
  - reflexivity.
  - intros i. rewrite lookup_init. split.
    + intros [v [Hv _]].
      destruct (Z_lt_dec i 0) as [Hneg | Hpos];
        [| destruct (Z_lt_dec i 128) as [Hlt | Hge]; [lia |]];
        rewrite init_at_out_of_range in Hv by lia; discriminate.
    + intros Hi. destruct (init_at_in_range i Hi) as [e He].
      exists (eval KEY e). rewrite He. split; [reflexivity |].
      apply eval_range.
  - intros i Hi. rewrite lookup_init, init_at_out_of_range by lia.
    reflexivity.
Qed.

(** C3: [lookup(0x00)] is the character 'a', [lookup(0x24)] is
    [KEY_RETURN], [lookup(0x31)] is the space character and
    [lookup(0x7A)] is [KEY_F1]. *)
Theorem lookup_documented_samples :
  lookup KEY 0x00 = Some (char_code "a") /\
  lookup KEY 0x24 = Some (to_uint8 (KEY KEY_RETURN)) /\
  lookup KEY 0x31 = Some (char_code " ") /\
  lookup KEY 0x7A = Some (to_uint8 (KEY KEY_F1)) /\
  init_at 0x00 = Some (CharLit "a") /\
  init_at 0x24 = Some (Macro KEY_RETURN) /\
  init_at 0x31 = Some (CharLit " ") /\
  init_at 0x7A = Some (Macro KEY_F1).
Proof.
  rewrite !lookup_init. repeat split; reflexivity.
Qed.

(** C4: the two distinct scan codes 0x18 (top-row equals) and 0x51
    (keypad equals) both hold the character '=', each through its own
    initialiser. *)
Theorem equals_keys_share_symbol :
  lookup KEY 0x18 = Some (char_code "=") /\
  lookup KEY 0x51 = Some (char_code "=") /\
  lookup KEY 0x18 = lookup KEY 0x51 /\
  init_at 0x18 = Some (CharLit "=") /\
  init_at 0x51 = Some (CharLit "=") /\
  0x18 <> 0x51.
Proof.
  rewrite !lookup_init. repeat split; try reflexivity. discriminate.
Qed.

(** C9: the initialiser of scan code 0x27 is the integer literal [0x27],
    not a character literal, and [lookup(0x27)] is 0x27, the ASCII code
    of the apostrophe. *)
Theorem quote_key_is_raw_byte :
  init_at 0x27 = Some (IntLit 0x27) /\
  lookup KEY 0x27 = Some 0x27 /\
  0x27 = char_code "'" /\
  is_punct 0x27 = true.
Proof.
  rewrite lookup_init. repeat split; reflexivity.
Qed.

(** C1: over the full input set 0 .. 127, the scan codes whose lookup is
    non-zero are exactly the documented key set (the scan codes of the
    mapped rows of the content table that the unmapped row does not
    list): none extra, none omitted.  The keyboard library must give no
    macro the value 0. *)
Theorem mapped_codes_are_documented :
  keys_nonzero KEY ->
  (forall i, 0 <= i < 128 ->
     ((exists v, lookup KEY i = Some v /\ v <> 0)
      <-> documented_mapped i = true)) /\
  filter (mapped KEY) scancodes = filter documented_mapped scancodes /\
  (forall i, 0 <= i < 128 ->
     documented_mapped i = negb (listed i documented_unmapped)).
Proof.
  intros HK. split; [| split].
  - intros i Hi. destruct (init_at_in_range i Hi) as [e He].
    rewrite (lookup_nonzero_init KEY i e HK He).
    pose proof (scancodes_forallb _ init_nonzero_documented i Hi) as Hc.
    cbv beta in Hc. rewrite He in Hc. apply eqb_prop in Hc.
    rewrite Hc. reflexivity.
  - apply filter_ext_in. intros i Hin.
    rewrite (mapped_init KEY i HK). apply eqb_prop.
    pose proof init_nonzero_documented as Hall.
    rewrite forallb_forall in Hall. apply (Hall i Hin).
  - intros i Hi. apply eqb_prop.
    apply (scancodes_forallb _ documented_rows_partition i Hi).
Qed.

(** C2: every scan code of the unmapped list reads as the sentinel 0, and
    a lookup signals nothing in any other way: each scan code of
    0 .. 127 reads as a plain byte. *)
Theorem unmapped_codes_read_zero :
  (forall i, In i documented_unmapped -> lookup KEY i = Some 0) /\
  (forall i, 0 <= i < 128 -> exists v, lookup KEY i = Some v /\ 0 <= v < 256).
Proof.
  split.
  - intros i Hin. rewrite lookup_init.
    unfold documented_unmapped in Hin. simpl in Hin.
    repeat (destruct Hin as [<- | Hin]; [reflexivity |]).
    contradiction.
  - intros i Hi. rewrite lookup_init.
    destruct (init_at_in_range i Hi) as [e ->].
    exists (eval KEY e). split; [reflexivity | apply eval_range].
Qed.

(** C6, as amended: every scan code of 0x00-0x35 other than 0x0A and 0x34
    holds a letter, a digit, a punctuation character, Enter, Tab, Space,
    Backtick, Backspace or Escape; the scan codes 0x36-0x39 hold
    Left-Ctrl, Left-GUI, Left-Shift and Caps-Lock. *)
Theorem first_row_typing_keys :
  (forall i, 0x00 <= i <= 0x35 -> i <> 0x0A -> i <> 0x34 ->
     exists v, lookup KEY i = Some v /\ typing_key KEY v) /\
  lookup KEY 0x36 = Some (to_uint8 (KEY KEY_LEFT_CTRL)) /\
  lookup KEY 0x37 = Some (to_uint8 (KEY KEY_LEFT_GUI)) /\
  lookup KEY 0x38 = Some (to_uint8 (KEY KEY_LEFT_SHIFT)) /\
  lookup KEY 0x39 = Some (to_uint8 (KEY KEY_CAPS_LOCK)).
Proof.
  split.
  - intros i Hi Ha H34.
    assert (Hr : 0 <= i < 128) by lia.
    pose proof (scancodes_forallb _ first_row_typing_init i Hr) as Hc.
    cbv beta in Hc.
    destruct (Z.leb_spec i 0x35) as [_ | Hgt]; [| lia].
    destruct (Z.eqb_spec i 0x0A) as [Heq | _]; [contradiction |].
    destruct (Z.eqb_spec i 0x34) as [Heq | _]; [contradiction |].
    simpl in Hc. rewrite lookup_init.
    destruct (init_at i) as [e |]; [| discriminate Hc].
    exists (eval KEY e). split; [reflexivity |].
    apply typing_init_sound, Hc.
  - rewrite !lookup_init. repeat split; reflexivity.
Qed.

(** C7: in 0x60-0x7A the mapped entries are exactly F1-F15, Insert, Home,
    Page-Up, Page-Down, Delete and End, each once, and the scan codes of
    that range reading 0 are precisely 0x66, 0x68, 0x6A, 0x6C, 0x6E and
    0x70.  The keyboard library must give no macro the value 0. *)
Theorem function_block_contents :
  keys_nonzero KEY ->
  Permutation (macros_of (init_slice 0x60 0x7A)) function_block_keys /\
  (forall i, 0x60 <= i <= 0x7A ->
     (lookup KEY i = Some 0 <-> In i function_block_unmapped)) /\
  (forall i, 0x60 <= i <= 0x7A -> ~ In i function_block_unmapped ->
     exists k, In k function_block_keys /\
               lookup KEY i = Some (to_uint8 (KEY k)) /\
               to_uint8 (KEY k) <> 0) /\
  (forall k, In k function_block_keys ->
     exists i, 0x60 <= i <= 0x7A /\
               lookup KEY i = Some (to_uint8 (KEY k))).
Proof.
  intros HK.
  assert (Hblock : forall i, 0x60 <= i <= 0x7A ->
            (init_at i = Some (IntLit 0) /\ In i function_block_unmapped) \/
            (exists k, init_at i = Some (Macro k) /\
                       In k function_block_keys /\
                       ~ In i function_block_unmapped)).
  { intros i Hi.
    assert (Hr : 0 <= i < 128) by lia.
    pose proof (scancodes_forallb _ function_block_init i Hr) as Hc.
    cbv beta in Hc.
    destruct (Z.leb_spec 0x60 i) as [_ | Hlt]; [| lia].
    destruct (Z.leb_spec i 0x7A) as [_ | Hgt]; [| lia].
    simpl in Hc.
    destruct (init_at i) as [[n | c | k] |]; try discriminate Hc.
    - destruct n as [| p | p]; try discriminate Hc.
      left. split; [reflexivity | apply listed_In, Hc].
    - right. exists k. apply andb_true_iff in Hc as [Hk Hn].
      split; [reflexivity |]. split; [apply key_listed_In, Hk |].
      rewrite <- listed_In. apply negb_true_iff in Hn.
      change (listed i function_block_unmapped = false) in Hn.
      rewrite Hn. discriminate. }
  split; [| split; [| split]].
  - apply NoDup_Permutation.
    + apply function_block_macros_NoDup.
    + apply function_block_keys_NoDup.
    + apply function_block_same_keys.
  - intros i Hi. rewrite lookup_init.
    destruct (Hblock i Hi) as [[He Hin] | [k [He [_ Hnot]]]]; rewrite He.
    + split; [intros _; exact Hin | reflexivity].
    + simpl. split; [| contradiction].
      intros Hz. injection Hz as Hz. exfalso. apply (HK k), Hz.
  - intros i Hi Hnot. rewrite lookup_init.
    destruct (Hblock i Hi) as [[_ Hin] | [k [He [Hk _]]]];
      [contradiction |].
    exists k. rewrite He. repeat split; [exact Hk | apply HK].
  - intros k Hk.
    pose proof function_block_positions as Hall.
    rewrite forallb_forall in Hall. specialize (Hall k Hk).
    apply existsb_exists in Hall as [i [_ Hi]].
    apply andb_true_iff in Hi as [Hi Hm].
    apply andb_true_iff in Hi as [Hlo Hhi].
    apply Z.leb_le in Hlo, Hhi.
    exists i. split; [lia |]. rewrite lookup_init.
    destruct (init_at i) as [[n | c | k'] |]; try discriminate Hm.
    unfold key_name_eqb in Hm.
    destruct (key_name_eq_dec k k') as [<- | _]; [reflexivity | discriminate].
Qed.

(** C8: for every scan code of 0 .. 127 the lookup returns a value; any
    number of lookups in a row return that same value each time and leave
    the table as it was. *)
Theorem lookup_pure_deterministic :
  forall i, 0 <= i < 128 ->
    exists v, lookup KEY i = Some v /\
              lookup_step i (keymap KEY) = Some (v, keymap KEY) /\
              forall n, lookup_repeat n i (keymap KEY)
                        = Some (repeat v n, keymap KEY).
Proof.
  intros i Hi.
  destruct (init_at_in_range i Hi) as [e He].
  assert (Hv : lookup KEY i = Some (eval KEY e))
    by (rewrite lookup_init, He; reflexivity).
  exists (eval KEY e). split; [exact Hv |]. split.
  - apply lookup_step_unchanged, Hv.
  - intros n. apply lookup_repeat_const, Hv.
Qed.

(** C10: scan code 0x47, inside the keypad range 0x41-0x5C, holds
    [KEY_NUM_LOCK]: a mapped, non-zero entry (the library giving Num Lock
    a non-zero code) that is neither in the unmapped list nor a keypad
    digit or operator. *)
Theorem num_lock_in_keypad_range :
  to_uint8 (KEY KEY_NUM_LOCK) <> 0 ->
  init_at 0x47 = Some (Macro KEY_NUM_LOCK) /\
  lookup KEY 0x47 = Some (to_uint8 (KEY KEY_NUM_LOCK)) /\
  (exists v, lookup KEY 0x47 = Some v /\ v <> 0) /\
  ~ In 0x47 documented_unmapped /\
  ~ In KEY_NUM_LOCK keypad_keys /\
  0x41 <= 0x47 <= 0x5C.
Proof.
  intros Hnz. rewrite lookup_init.
  split; [reflexivity |]. split; [reflexivity |].
  split; [exists (to_uint8 (KEY KEY_NUM_LOCK)); split;
          [reflexivity | exact Hnz] |].
  split; [rewrite <- listed_In; vm_compute; discriminate |].
  split; [rewrite <- key_listed_In; vm_compute; discriminate | lia].
Qed.

End KeymapFacts.

(** ** The table run with the Arduino key codes *)

(** C1 at scan code 0x47 and on the whole table, with the Arduino key
    codes. *)
Lemma mapped_codes_are_documented_witness :
  keys_nonzero arduino_keyboard /\
  ((exists v, lookup arduino_keyboard 0x47 = Some v /\ v <> 0)
   <-> documented_mapped 0x47 = true) /\
  filter (mapped arduino_keyboard) scancodes
  = filter documented_mapped scancodes.
Proof.
  destruct (mapped_codes_are_documented arduino_keyboard
              arduino_keyboard_nonzero) as [Hpoint [Hset _]].
  split; [exact arduino_keyboard_nonzero |].
  split; [apply Hpoint; lia | exact Hset].
Defined.

(** C2 at scan code 0x7F, the power button. *)
Lemma unmapped_codes_read_zero_witness :
  In 0x7F documented_unmapped /\ lookup arduino_keyboard 0x7F = Some 0.
Proof.
  assert (Hin : In 0x7F documented_unmapped)
    by (apply listed_In; vm_compute; reflexivity).
  split; [exact Hin |].
  apply (proj1 (unmapped_codes_read_zero arduino_keyboard) 0x7F Hin).
Defined.

(** C5 at the last scan code and at the first index past the table. *)
Lemma keymap_has_128_entries_witness :
  (exists v, lookup arduino_keyboard 127 = Some v /\ 0 <= v < 256) /\
  lookup arduino_keyboard 128 = None.
Proof.
  destruct (keymap_has_128_entries arduino_keyboard)
    as [_ [_ [Hdom Hout]]].
  split; [apply Hdom; lia | apply Hout; lia].
Defined.

(** C6, as amended, at scan code 0x35 (Escape). *)
Lemma first_row_typing_keys_witness :
  0x00 <= 0x35 <= 0x35 /\ 0x35 <> 0x0A /\ 0x35 <> 0x34 /\
  exists v, lookup arduino_keyboard 0x35 = Some v /\
            typing_key arduino_keyboard v.
Proof.
  split; [lia |]. split; [lia |]. split; [lia |].
  apply (proj1 (first_row_typing_keys arduino_keyboard) 0x35); lia.
Defined.

(** C6 as documented fails at scan code 0x36: with the Arduino key codes
    the table holds 0x80 there, Left-Ctrl, which is none of the kinds the
    first row names. *)
Lemma first_row_as_documented_fails :
  0x00 <= 0x36 <= 0x39 /\ 0x36 <> 0x0A /\ 0x36 <> 0x34 /\
  init_at 0x36 = Some (Macro KEY_LEFT_CTRL) /\
  lookup arduino_keyboard 0x36 = Some 0x80 /\
  ~ typing_key arduino_keyboard 0x80 /\
  ~ first_row_as_documented arduino_keyboard.
Proof.
  split; [lia |]. split; [lia |]. split; [lia |].
  split; [reflexivity |]. split; [reflexivity |].
  split; [exact arduino_left_ctrl_not_typing |].
  apply first_row_fails_on_left_ctrl, arduino_left_ctrl_not_typing.
Qed.

(** C7 with the Arduino key codes, at the hole 0x66 and at F1. *)
Lemma function_block_contents_witness :
  keys_nonzero arduino_keyboard /\
  (lookup arduino_keyboard 0x66 = Some 0 <-> In 0x66 function_block_unmapped) /\
  (exists i, 0x60 <= i <= 0x7A /\ lookup arduino_keyboard i = Some 0xC2).
Proof.
  destruct (function_block_contents arduino_keyboard
              arduino_keyboard_nonzero) as [_ [Hholes [_ Hkeys]]].
  split; [exact arduino_keyboard_nonzero |].
  split; [apply Hholes; lia |].
  apply (Hkeys KEY_F1). apply key_listed_In. vm_compute. reflexivity.
Defined.

(** C8 at scan code 0x00. *)
Lemma lookup_pure_deterministic_witness :
  0 <= 0x00 < 128 /\
  exists v, lookup arduino_keyboard 0x00 = Some v /\
            lookup_step 0x00 (keymap arduino_keyboard)
            = Some (v, keymap arduino_keyboard) /\
            forall n, lookup_repeat n 0x00 (keymap arduino_keyboard)
                      = Some (repeat v n, keymap arduino_keyboard).
Proof.
  split; [lia |].
  apply (lookup_pure_deterministic arduino_keyboard 0x00). lia.
Defined.

(** C10 with the Arduino key codes, where Num Lock is 0xDB. *)
Lemma num_lock_in_keypad_range_witness :
  to_uint8 (arduino_keyboard KEY_NUM_LOCK) <> 0 /\
  lookup arduino_keyboard 0x47 = Some 0xDB.
Proof.
  assert (Hnz : to_uint8 (arduino_keyboard KEY_NUM_LOCK) <> 0)
    by (vm_compute; discriminate).
  split; [exact Hnz |].
  apply (num_lock_in_keypad_range arduino_keyboard Hnz).
Defined.

(** * Further properties of the table *)

(** ** Keys and the bytes they are stored as *)

Lemma key_id_eqb_eq (a b : key_id) : key_id_eqb a b = true <-> a = b.
Proof.
  destruct a as [v | k], b as [w | k']; simpl.
  - rewrite Z.eqb_eq. split; [intros -> | intros [= ->]]; reflexivity.
  - split; discriminate.
  - split; discriminate.
  - unfold key_name_eqb.
    destruct (key_name_eq_dec k k') as [-> | Hne].
    + split; reflexivity.
    + split; [discriminate | intros [= Heq]; contradiction].
Qed.

Lemma eval_key_value (KEY : key_name -> Z) (e : initializer) :
  eval KEY e = key_value KEY (init_key e).
Proof. destruct e; reflexivity. Qed.

Lemma eval_raw_value (KEY : key_name -> Z) (e : initializer) :
  eval KEY e = to_uint8 (raw_value KEY e).
Proof. destruct e; reflexivity. Qed.

Lemma lookup_key_at (KEY : key_name -> Z) (i : Z) :
  lookup KEY i = option_map (key_value KEY) (key_at i).
Proof.
  rewrite lookup_init. unfold key_at.
  destruct (init_at i) as [e |]; simpl; [| reflexivity].
  rewrite eval_key_value. reflexivity.
Qed.

Lemma init_at_some_in_range (i : Z) (e : initializer) :
  init_at i = Some e -> 0 <= i < 128.
Proof.
  intros He.
  destruct (Z_lt_dec i 0) as [Hneg | Hpos];
    [| destruct (Z_lt_dec i 128) as [Hlt | Hge]; [lia |]];
    rewrite init_at_out_of_range in He by lia; discriminate.
Qed.

Lemma key_at_some_in_range (i : Z) (a : key_id) :
  key_at i = Some a -> 0 <= i < 128.
Proof.
  unfold key_at. destruct (init_at i) as [e |] eqn:He; [| discriminate].
  intros _. apply (init_at_some_in_range i e He).
Qed.

Lemma lookup_some_in_range (KEY : key_name -> Z) (i v : Z) :
  lookup KEY i = Some v -> 0 <= i < 128.
Proof.
  rewrite lookup_key_at.
  destruct (key_at i) as [a |] eqn:Ha; [| discriminate].
  intros _. apply (key_at_some_in_range i a Ha).
Qed.

(** The literals of the table are 0 or printable 7-bit ASCII. *)
Lemma table_literals_ascii :
  forallb (fun i => match key_at i with
                    | Some (Literal v) =>
                        (v =? 0) || ((0x20 <=? v) && (v <=? 0x7E))
                    | _ => true
                    end)
          scancodes = true.
Proof. vm_compute. reflexivity. Qed.

Lemma key_at_literal_ascii (i v : Z) :
  key_at i = Some (Literal v) -> v = 0 \/ 0x20 <= v <= 0x7E.
Proof.
  intros Ha.
  pose proof (scancodes_forallb _ table_literals_ascii i
                (key_at_some_in_range i _ Ha)) as Hc.
  cbv beta in Hc. rewrite Ha in Hc.
  apply orb_true_iff in Hc as [Hz | Hr].
  - left. apply Z.eqb_eq, Hz.
  - right. apply andb_true_iff in Hr as [Hlo Hhi].
    apply Z.leb_le in Hlo, Hhi. lia.
Qed.

(** With the macros above 0x7F, a byte below 0x80 is read exactly where it
    is written as a literal. *)
Lemma lookup_ascii_literal (KEY : key_name -> Z) (i v : Z) :
  keys_above_ascii KEY -> v < 0x80 ->
  (lookup KEY i = Some v <-> key_at i = Some (Literal v)).
Proof.
  intros HK Hv. rewrite lookup_key_at.
  destruct (key_at i) as [[w | k] |]; simpl.
  - split; intros [= ->]; reflexivity.
  - split; [| discriminate].
    intros [= Heq]. specialize (HK k). lia.
  - split; discriminate.
Qed.

(** With the macros above 0x7F and pairwise distinct, two scan codes that
    read the same byte are written with the same key. *)
Lemma same_value_same_key (KEY : key_name -> Z) (i j v : Z) :
  keys_above_ascii KEY -> keys_injective KEY ->
  lookup KEY i = Some v -> lookup KEY j = Some v ->
  exists a, key_at i = Some a /\ key_at j = Some a /\ key_value KEY a = v.
Proof.
  intros Habove Hinj. rewrite !lookup_key_at.
  destruct (key_at i) as [a |] eqn:Ha; [| discriminate].
  destruct (key_at j) as [b |] eqn:Hb; [| discriminate].
  simpl. intros [= Hva] [= Hvb].
  exists a. split; [reflexivity |]. split; [| exact Hva].
  f_equal.
  destruct a as [v1 | k1], b as [v2 | k2]; simpl in Hva, Hvb.
  - congruence.
  - pose proof (key_at_literal_ascii i v1 Ha) as Hr.
    specialize (Habove k2). lia.
  - pose proof (key_at_literal_ascii j v2 Hb) as Hr.
    specialize (Habove k1). lia.
  - f_equal. symmetry. apply Hinj. congruence.
Qed.

(** Scan code against scan code: the only key written twice is the
    '=' of 0x18 and 0x51 (the literal 0 apart). *)
Lemma shared_keys_check :
  forallb (fun i =>
    forallb (fun j =>
      match key_at i, key_at j with
      | Some a, Some b =>
          implb (key_id_eqb a b && negb (key_id_eqb a (Literal 0)))
                ((i =? j) || ((i =? 0x18) && (j =? 0x51))
                 || ((i =? 0x51) && (j =? 0x18)))
      | _, _ => true
      end) scancodes) scancodes = true.
Proof. vm_compute. reflexivity. Qed.

Lemma arduino_keyboard_fit_byte : keys_fit_byte arduino_keyboard.
Proof. intros k. destruct k; simpl; lia. Qed.

Lemma arduino_keyboard_above_ascii : keys_above_ascii arduino_keyboard.
Proof. intros k. destruct k; vm_compute; discriminate. Qed.

Lemma all_key_names_complete (k : key_name) : In k all_key_names.
Proof. apply key_listed_In. destruct k; reflexivity. Qed.

Lemma arduino_keyboard_injective : keys_injective arduino_keyboard.
Proof.
  assert (Hall : forallb (fun k =>
            forallb (fun k' =>
              implb (to_uint8 (arduino_keyboard k)
                     =? to_uint8 (arduino_keyboard k'))
                    (key_name_eqb k k')) all_key_names) all_key_names = true)
    by (vm_compute; reflexivity).
  intros k k' Heq.
  rewrite forallb_forall in Hall.
  specialize (Hall k (all_key_names_complete k)).
  rewrite forallb_forall in Hall.
  specialize (Hall k' (all_key_names_complete k')). cbv beta in Hall.
  apply Z.eqb_eq in Heq. rewrite Heq in Hall. simpl in Hall.
  unfold key_name_eqb in Hall.
  destruct (key_name_eq_dec k k') as [-> | _]; [reflexivity | discriminate].
Qed.

Section KeymapMore.

Variable KEY : key_name -> Z.

(** X1: with a keyboard library whose macros are stored as pairwise
    distinct bytes above 0x7F, two different scan codes never read the same
    non-zero key code, except 0x18 and 0x51, which both read '='. *)
Theorem distinct_codes_distinct_keys :
  keys_above_ascii KEY -> keys_injective KEY ->
  forall i j v,
    lookup KEY i = Some v -> lookup KEY j = Some v -> v <> 0 ->
    i = j \/
    (v = char_code "=" /\
     ((i = 0x18 /\ j = 0x51) \/ (i = 0x51 /\ j = 0x18))).
Proof.
  intros Habove Hinj i j v Hi Hj Hnz.
  pose proof (lookup_some_in_range KEY i v Hi) as Hri.
  pose proof (lookup_some_in_range KEY j v Hj) as Hrj.
  destruct (same_value_same_key KEY i j v Habove Hinj Hi Hj)
    as [a [Ha [Hb Hva]]].
  pose proof (scancodes_forallb _ shared_keys_check i Hri) as Hc.
  cbv beta in Hc.
  pose proof (scancodes_forallb _ Hc j Hrj) as Hc'.
  cbv beta in Hc'. rewrite Ha, Hb in Hc'.
  assert (Hsame : key_id_eqb a a = true) by (apply key_id_eqb_eq; reflexivity).
  assert (Hnot0 : key_id_eqb a (Literal 0) = false).
  { destruct (key_id_eqb a (Literal 0)) eqn:Hz; [| reflexivity].
    apply key_id_eqb_eq in Hz. subst a. simpl in Hva. congruence. }
  rewrite Hsame, Hnot0 in Hc'. simpl in Hc'.
  assert (Heq18 : lookup KEY 0x18 = Some (char_code "="))
    by (rewrite lookup_init; reflexivity).
  assert (Heq51 : lookup KEY 0x51 = Some (char_code "="))
    by (rewrite lookup_init; reflexivity).
  apply orb_true_iff in Hc' as [Hc' | Hc'];
    [apply orb_true_iff in Hc' as [Hc' | Hc'] |].
  - left. apply Z.eqb_eq, Hc'.
  - apply andb_true_iff in Hc' as [H1 H2].
    apply Z.eqb_eq in H1, H2. subst i j. right.
    split; [congruence | left; split; reflexivity].
  - apply andb_true_iff in Hc' as [H1 H2].
    apply Z.eqb_eq in H1, H2. subst i j. right.
    split; [congruence | right; split; reflexivity].
Qed.

(** ** Conversion to [uint8_t] *)

Lemma table_literals_fit_byte :
  forallb (fun e => match e with
                    | IntLit n => (0 <=? n) && (n <? 256)
                    | CharLit c => (0 <=? char_code c) && (char_code c <? 256)
                    | Macro _ => true
                    end)
          keymap_init = true.
Proof. vm_compute. reflexivity. Qed.

Lemma eval_no_wrap (e : initializer) :
  keys_fit_byte KEY -> In e keymap_init -> eval KEY e = raw_value KEY e.
Proof.
  intros HK Hin. rewrite eval_raw_value. unfold to_uint8.
  apply Z.mod_small.
  pose proof table_literals_fit_byte as Hall.
  rewrite forallb_forall in Hall. specialize (Hall e Hin).
  destruct e as [n | c | k]; simpl.
  - apply andb_true_iff in Hall as [Hlo Hhi].
    apply Z.leb_le in Hlo. apply Z.ltb_lt in Hhi. lia.
  - apply andb_true_iff in Hall as [Hlo Hhi].
    apply Z.leb_le in Hlo. apply Z.ltb_lt in Hhi. lia.
  - apply HK.
Qed.

Lemma init_at_In (i : Z) (e : initializer) :
  init_at i = Some e -> In e keymap_init.
Proof.
  unfold init_at. destruct (i <? 0); [discriminate |].
  apply nth_error_In.
Qed.

(** X2: when every macro of the keyboard library is a byte already, storing
    the initialisers in [uint8_t] elements changes none of them: the array
    holds the values as written, and a lookup returns the written value. *)
Theorem no_initializer_truncated :
  keys_fit_byte KEY ->
  keymap KEY = map (raw_value KEY) keymap_init /\
  (forall i e, init_at i = Some e -> lookup KEY i = Some (raw_value KEY e)).
Proof.
  intros HK. split.
  - rewrite keymap_unfold. apply map_ext_in.
    intros e Hin. apply eval_no_wrap; assumption.
  - intros i e He. rewrite lookup_init, He. simpl. f_equal.
    apply eval_no_wrap; [exact HK | apply (init_at_In i e He)].
Qed.

(** ** Characters *)

Lemma letter_or_digit_listed (v : Z) :
  is_lower v = true \/ is_digit v = true -> In v letter_and_digit_codes.
Proof.
  unfold is_lower, is_digit, letter_and_digit_codes.
  intros Hv. apply in_map_iff. exists (Z.to_nat v).
  rewrite in_app_iff, !in_seq.
  destruct Hv as [Hv | Hv]; apply andb_true_iff in Hv as [Hlo Hhi];
    apply Z.leb_le in Hlo, Hhi; lia.
Qed.

Lemma letters_digits_written_once :
  forallb (fun v => match codes_of (Literal v) with
                    | [_] => true
                    | _ => false
                    end)
          letter_and_digit_codes = true.
Proof. vm_compute. reflexivity. Qed.

Lemma codes_of_spec (a : key_id) (i : Z) :
  In i (codes_of a) <-> key_at i = Some a.
Proof.
  unfold codes_of. rewrite filter_In. split.
  - intros [_ Hk]. destruct (key_at i) as [b |]; [| discriminate].
    apply key_id_eqb_eq in Hk. subst b. reflexivity.
  - intros Hk. split.
    + apply in_scancodes, (key_at_some_in_range i a Hk).
    + rewrite Hk. apply key_id_eqb_eq. reflexivity.
Qed.

(** X3: each lowercase letter 'a'..'z' and each digit '0'..'9' is the key
    code of exactly one scan code (the macros of the keyboard library lying
    above 0x7F). *)
Theorem letters_and_digits_once :
  keys_above_ascii KEY ->
  forall v, is_lower v = true \/ is_digit v = true ->
    exists i, 0 <= i < 128 /\ lookup KEY i = Some v /\
              forall j, lookup KEY j = Some v -> j = i.
Proof.
  intros HK v Hv.
  assert (Hlt : v < 0x80).
  { unfold is_lower, is_digit in Hv.
    destruct Hv as [Hv | Hv]; apply andb_true_iff in Hv as [_ Hhi];
      apply Z.leb_le in Hhi; lia. }
  pose proof letters_digits_written_once as Hall.
  rewrite forallb_forall in Hall.
  specialize (Hall v (letter_or_digit_listed v Hv)). cbv beta in Hall.
  destruct (codes_of (Literal v)) as [| i [| i' rest]] eqn:Hcodes;
    try discriminate Hall.
  assert (Hi : key_at i = Some (Literal v)).
  { apply (proj1 (codes_of_spec (Literal v) i)).
    rewrite Hcodes. left. reflexivity. }
  exists i. split; [apply (key_at_some_in_range i _ Hi) |]. split.
  - apply (lookup_ascii_literal KEY i v HK Hlt), Hi.
  - intros j Hj. apply (lookup_ascii_literal KEY j v HK Hlt) in Hj.
    apply (proj2 (codes_of_spec (Literal v) j)) in Hj.
    rewrite Hcodes in Hj.
    destruct Hj as [-> | []]. reflexivity.
Qed.

Lemma table_unshifted :
  forallb (fun i => match key_at i with
                    | Some (Literal v) =>
                        negb (is_upper v) && negb (listed v shifted_symbols)
                    | _ => true
                    end)
          scancodes = true.
Proof. vm_compute. reflexivity. Qed.

Lemma shifted_symbols_ascii (v : Z) : In v shifted_symbols -> v < 0x80.
Proof.
  assert (Hall : forallb (fun w => w <? 0x80) shifted_symbols = true)
    by (vm_compute; reflexivity).
  rewrite forallb_forall in Hall.
  intros Hin. apply Z.ltb_lt, Hall, Hin.
Qed.

(** X4: the table holds the unshifted layer only: no scan code reads as an
    uppercase letter or as one of the shifted symbols (the macros of the
    keyboard library lying above 0x7F). *)
Theorem unshifted_characters_only :
  keys_above_ascii KEY ->
  forall i v, lookup KEY i = Some v ->
    is_upper v = false /\ ~ In v shifted_symbols.
Proof.
  intros HK i v Hv.
  destruct (Z_lt_dec v 0x80) as [Hlt | Hge].
  - apply (lookup_ascii_literal KEY i v HK Hlt) in Hv.
    pose proof (scancodes_forallb _ table_unshifted i
                  (key_at_some_in_range i _ Hv)) as Hc.
    cbv beta in Hc. rewrite Hv in Hc.
    apply andb_true_iff in Hc as [Hup Hsh].
    apply negb_true_iff in Hup, Hsh. split; [exact Hup |].
    rewrite <- listed_In, Hsh. discriminate.
  - split.
    + unfold is_upper. apply andb_false_iff. right. apply Z.leb_gt. lia.
    + intros Hin. apply shifted_symbols_ascii in Hin. contradiction.
Qed.

(** X7: with the macros of the keyboard library above 0x7F, a key code
    below 0x80 is 0 or a printable ASCII character and was written as a
    literal, and a key code from 0x80 on comes from a macro. *)
Theorem key_codes_split_at_0x80 :
  keys_above_ascii KEY ->
  forall i v, lookup KEY i = Some v ->
    (v < 0x80 ->
       (v = 0 \/ 0x20 <= v <= 0x7E) /\ key_at i = Some (Literal v)) /\
    (0x80 <= v ->
       exists k, init_at i = Some (Macro k) /\ v = to_uint8 (KEY k)).
Proof.
  intros HK i v Hv. split.
  - intros Hlt. apply (lookup_ascii_literal KEY i v HK Hlt) in Hv.
    split; [apply (key_at_literal_ascii i v Hv) | exact Hv].
  - intros Hge. rewrite lookup_init in Hv.
    destruct (init_at i) as [e |] eqn:He; [| discriminate].
    simpl in Hv. injection Hv as Hv.
    assert (Hk : key_at i = Some (init_key e))
      by (unfold key_at; rewrite He; reflexivity).
    destruct e as [n | c | k].
    + apply key_at_literal_ascii in Hk. unfold eval in Hv. lia.
    + apply key_at_literal_ascii in Hk. unfold eval in Hv. lia.
    + exists k. split; [reflexivity | symmetry; exact Hv].
Qed.

(** ** Unmapped scan codes *)

(** An initialiser of the table that can be zero is the literal [0]. *)
Lemma zero_inits_are_literal_0 :
  forallb (fun e => init_nonzero e
                    || if initializer_eq_dec e (IntLit 0) then true else false)
          keymap_init = true.
Proof. vm_compute. reflexivity. Qed.

Lemma unmapped_count_init :
  length (filter (fun i => negb match init_at i with
                                | Some e => init_nonzero e
                                | None => false
                                end)
                 scancodes) = 25%nat.
Proof. vm_compute. reflexivity. Qed.

(** X6: when no macro of the keyboard library is stored as 0, a scan code
    reads 0 exactly when its initialiser is written [0]; this is the case
    for 25 of the 128 scan codes. *)
Theorem zero_entries_are_explicit :
  keys_nonzero KEY ->
  (forall i, lookup KEY i = Some 0 <-> init_at i = Some (IntLit 0)) /\
  length (filter (fun i => negb (mapped KEY i)) scancodes) = 25%nat.
Proof.
  intros HK. split.
  - intros i. rewrite lookup_init. split.
    + destruct (init_at i) as [e |] eqn:He; [| discriminate].
      simpl. intros [= Hz]. f_equal.
      pose proof zero_inits_are_literal_0 as Hall.
      rewrite forallb_forall in Hall.
      specialize (Hall e (init_at_In i e He)). cbv beta in Hall.
      destruct (init_nonzero e) eqn:Hnz.
      * apply (eval_nonzero KEY e HK) in Hnz. contradiction.
      * destruct (initializer_eq_dec e (IntLit 0)) as [Heq | _];
          [exact Heq | discriminate Hall].
    + intros ->. reflexivity.
  - rewrite (filter_ext (fun i => negb (mapped KEY i))
                        (fun i => negb match init_at i with
                                       | Some e => init_nonzero e
                                       | None => false
                                       end)).
    + exact unmapped_count_init.
    + intros i. rewrite (mapped_init KEY i HK). reflexivity.
Qed.

(** ** The keypad block *)

Lemma keypad_block_init :
  forallb (fun i =>
    if (0x41 <=? i) && (i <=? 0x5C)
    then match init_at i with
         | Some (Macro k) =>
             (key_listed k keypad_keys
              || (key_name_eqb k KEY_NUM_LOCK && (i =? 0x47)))
             && negb (listed i keypad_block_unmapped)
         | Some (IntLit 0) => listed i keypad_block_unmapped
         | Some (CharLit c) =>
             (if ascii_dec c "=" then true else false) && (i =? 0x51)
             && negb (listed i keypad_block_unmapped)
         | _ => false
         end
    else true)
  scancodes = true.
Proof. vm_compute. reflexivity. Qed.

Lemma keypad_block_positions :
  forallb (fun k => existsb (fun i => (0x41 <=? i) && (i <=? 0x5C)
                                      && match init_at i with
                                         | Some (Macro k') => key_name_eqb k k'
                                         | _ => false
                                         end)
                            scancodes)
          keypad_keys = true.
Proof. vm_compute. reflexivity. Qed.

(** X5: in the keypad block 0x41 .. 0x5C the scan codes reading 0 are
    exactly 0x42, 0x44, 0x46, 0x48, 0x49, 0x4A, 0x4D, 0x4F, 0x50 and 0x5A;
    every other scan code of the block reads a keypad key of the library,
    Num Lock (at 0x47 only) or the character '=' (at 0x51 only), and every
    keypad key is read at some scan code of the block.  The keyboard
    library must give no macro the value 0. *)
Theorem keypad_block_contents :
  keys_nonzero KEY ->
  (forall i, 0x41 <= i <= 0x5C ->
     (lookup KEY i = Some 0 <-> In i keypad_block_unmapped)) /\
  (forall i, 0x41 <= i <= 0x5C -> ~ In i keypad_block_unmapped ->
     (i = 0x51 /\ lookup KEY i = Some (char_code "=")) \/
     (i = 0x47 /\ lookup KEY i = Some (to_uint8 (KEY KEY_NUM_LOCK))) \/
     (exists k, In k keypad_keys /\
                lookup KEY i = Some (to_uint8 (KEY k)))) /\
  (forall k, In k keypad_keys ->
     exists i, 0x41 <= i <= 0x5C /\
               lookup KEY i = Some (to_uint8 (KEY k))).
Proof.
  intros HK.
  assert (Hblock : forall i, 0x41 <= i <= 0x5C ->
            (init_at i = Some (IntLit 0) /\ In i keypad_block_unmapped) \/
            (~ In i keypad_block_unmapped /\
             ((i = 0x51 /\ init_at i = Some (CharLit "=")) \/
              (i = 0x47 /\ init_at i = Some (Macro KEY_NUM_LOCK)) \/
              (exists k, In k keypad_keys /\ init_at i = Some (Macro k))))).
  { intros i Hi.
    assert (Hr : 0 <= i < 128) by lia.
    pose proof (scancodes_forallb _ keypad_block_init i Hr) as Hc.
    cbv beta in Hc.
    destruct (Z.leb_spec 0x41 i) as [_ | Hlt]; [| lia].
    destruct (Z.leb_spec i 0x5C) as [_ | Hgt]; [| lia].
    cbn [andb] in Hc.
    assert (Hnot : negb (listed i keypad_block_unmapped) = true ->
                   ~ In i keypad_block_unmapped).
    { intros Hn. apply negb_true_iff in Hn.
      rewrite <- listed_In, Hn. discriminate. }
    destruct (init_at i) as [[n | c | k] |]; try discriminate Hc.
    - destruct n as [| p | p]; try discriminate Hc.
      left. split; [reflexivity | apply listed_In, Hc].
    - right. apply andb_true_iff in Hc as [Hc Hn].
      apply andb_true_iff in Hc as [Hceq Hidx].
      split; [apply Hnot, Hn |]. left.
      apply Z.eqb_eq in Hidx.
      destruct (ascii_dec c "=") as [-> | _]; [| discriminate Hceq].
      split; [exact Hidx | reflexivity].
    - right. apply andb_true_iff in Hc as [Hc Hn].
      split; [apply Hnot, Hn |]. right.
      apply orb_true_iff in Hc as [Hk | Hnum].
      + right. exists k. split; [apply key_listed_In, Hk | reflexivity].
      + left. apply andb_true_iff in Hnum as [Hk Hidx].
        apply Z.eqb_eq in Hidx. unfold key_name_eqb in Hk.
        destruct (key_name_eq_dec k KEY_NUM_LOCK) as [-> | _];
          [| discriminate Hk].
        split; [exact Hidx | reflexivity]. }
  split; [| split].
  - intros i Hi. rewrite lookup_init.
    destruct (Hblock i Hi) as [[He Hin] | [Hnot Hkey]].
    + rewrite He. split; [intros _; exact Hin | reflexivity].
    + split; [| contradiction].
      destruct Hkey as [[_ He] | [[_ He] | [k [_ He]]]]; rewrite He; simpl.
      * discriminate.
      * intros [= Hz]. exfalso. apply (HK KEY_NUM_LOCK), Hz.
      * intros [= Hz]. exfalso. apply (HK k), Hz.
  - intros i Hi Hnot. rewrite lookup_init.
    destruct (Hblock i Hi) as [[_ Hin] | [_ Hkey]]; [contradiction |].
    destruct Hkey as [[Hidx He] | [[Hidx He] | [k [Hk He]]]]; rewrite He.
    + left. split; [exact Hidx | reflexivity].
    + right. left. split; [exact Hidx | reflexivity].
    + right. right. exists k. split; [exact Hk | reflexivity].
  - intros k Hk.
    pose proof keypad_block_positions as Hall.
    rewrite forallb_forall in Hall. specialize (Hall k Hk).
    apply existsb_exists in Hall as [i [_ Hi]].
    apply andb_true_iff in Hi as [Hi Hm].
    apply andb_true_iff in Hi as [Hlo Hhi].
    apply Z.leb_le in Hlo, Hhi.
    exists i. split; [lia |]. rewrite lookup_init.
    destruct (init_at i) as [[n | c | k'] |]; try discriminate Hm.
    unfold key_name_eqb in Hm.
    destruct (key_name_eq_dec k k') as [<- | _]; [reflexivity | discriminate].
Qed.

End KeymapMore.

(** ** The further properties run with the Arduino key codes *)

(** X1 at the two '=' keys. *)
Lemma distinct_codes_distinct_keys_witness :
  keys_above_ascii arduino_keyboard /\ keys_injective arduino_keyboard /\
  lookup arduino_keyboard 0x18 = Some 61 /\
  lookup arduino_keyboard 0x51 = Some 61 /\ 61 <> 0 /\
  (0x18 = 0x51 \/
   (61 = char_code "=" /\
    ((0x18 = 0x18 /\ 0x51 = 0x51) \/ (0x18 = 0x51 /\ 0x51 = 0x18)))).
Proof.
  assert (H18 : lookup arduino_keyboard 0x18 = Some 61) by reflexivity.
  assert (H51 : lookup arduino_keyboard 0x51 = Some 61) by reflexivity.
  assert (Hnz : 61 <> 0) by lia.
  repeat (split; [first [ exact arduino_keyboard_above_ascii
                        | exact arduino_keyboard_injective
                        | exact H18 | exact H51 | exact Hnz ] |]).
  apply (distinct_codes_distinct_keys arduino_keyboard
           arduino_keyboard_above_ascii arduino_keyboard_injective
           0x18 0x51 61 H18 H51 Hnz).
Defined.

(** X2 with the Arduino key codes, all of them bytes; Return is 0xB0. *)
Lemma no_initializer_truncated_witness :
  keys_fit_byte arduino_keyboard /\
  keymap arduino_keyboard = map (raw_value arduino_keyboard) keymap_init /\
  lookup arduino_keyboard 0x24 = Some 0xB0.
Proof.
  destruct (no_initializer_truncated arduino_keyboard
              arduino_keyboard_fit_byte) as [Hmap Hread].
  split; [exact arduino_keyboard_fit_byte |]. split; [exact Hmap |].
  apply (Hread 0x24 (Macro KEY_RETURN)). reflexivity.
Defined.

(** X3 at the letter 'a'. *)
Lemma letters_and_digits_once_witness :
  keys_above_ascii arduino_keyboard /\
  (is_lower 0x61 = true \/ is_digit 0x61 = true) /\
  exists i, 0 <= i < 128 /\ lookup arduino_keyboard i = Some 0x61 /\
            forall j, lookup arduino_keyboard j = Some 0x61 -> j = i.
Proof.
  assert (Hv : is_lower 0x61 = true \/ is_digit 0x61 = true)
    by (left; reflexivity).
  split; [exact arduino_keyboard_above_ascii |]. split; [exact Hv |].
  apply (letters_and_digits_once arduino_keyboard
           arduino_keyboard_above_ascii 0x61 Hv).
Defined.

(** X4 at scan code 0x1B, the key of '-' and '_'. *)
Lemma unshifted_characters_only_witness :
  keys_above_ascii arduino_keyboard /\
  lookup arduino_keyboard 0x1B = Some (char_code "-") /\
  is_upper (char_code "-") = false /\
  ~ In (char_code "-") shifted_symbols.
Proof.
  assert (Hv : lookup arduino_keyboard 0x1B = Some (char_code "-"))
    by reflexivity.
  split; [exact arduino_keyboard_above_ascii |]. split; [exact Hv |].
  apply (unshifted_characters_only arduino_keyboard
           arduino_keyboard_above_ascii 0x1B (char_code "-") Hv).
Defined.

(** X5 with the Arduino key codes, at the hole 0x42 and at keypad 0. *)
Lemma keypad_block_contents_witness :
  keys_nonzero arduino_keyboard /\
  (lookup arduino_keyboard 0x42 = Some 0 <-> In 0x42 keypad_block_unmapped) /\
  (exists i, 0x41 <= i <= 0x5C /\ lookup arduino_keyboard i = Some 0xEA).
Proof.
  destruct (keypad_block_contents arduino_keyboard
              arduino_keyboard_nonzero) as [Hholes [_ Hkeys]].
  split; [exact arduino_keyboard_nonzero |].
  split; [apply Hholes; lia |].
  apply (Hkeys KEY_KP_0). apply key_listed_In. vm_compute. reflexivity.
Defined.

(** X6 with the Arduino key codes, at scan code 0x0A. *)
Lemma zero_entries_are_explicit_witness :
  keys_nonzero arduino_keyboard /\
  (lookup arduino_keyboard 0x0A = Some 0 <-> init_at 0x0A = Some (IntLit 0)) /\
  length (filter (fun i => negb (mapped arduino_keyboard i)) scancodes)
  = 25%nat.
Proof.
  destruct (zero_entries_are_explicit arduino_keyboard
              arduino_keyboard_nonzero) as [Hzero Hcount].
  split; [exact arduino_keyboard_nonzero |].
  split; [apply Hzero | exact Hcount].
Defined.

(** X7 at Return, 0xB0 with the Arduino key codes. *)
Lemma key_codes_split_at_0x80_witness :
  keys_above_ascii arduino_keyboard /\
  lookup arduino_keyboard 0x24 = Some 0xB0 /\ 0x80 <= 0xB0 /\
  exists k, init_at 0x24 = Some (Macro k) /\
            0xB0 = to_uint8 (arduino_keyboard k).
Proof.
  assert (Hv : lookup arduino_keyboard 0x24 = Some 0xB0) by reflexivity.
  assert (Hge : 0x80 <= 0xB0) by lia.
  split; [exact arduino_keyboard_above_ascii |]. split; [exact Hv |].
  split; [exact Hge |].
  apply (proj2 (key_codes_split_at_0x80 arduino_keyboard
                  arduino_keyboard_above_ascii 0x24 0xB0 Hv) Hge).
Defined.
